(* Shallow embedding of the kling Python SDK (src/kling/base.py,
   src/kling/exceptions.py, src/kling/api/image_to_video.py,
   src/kling/client.py): the polling loop of BaseAPIClient, the response
   handler, the image-to-video request routing and the HTTP client
   lifecycle. *)

From Stdlib Require Import String Ascii ZArith List Bool Lia.
Import ListNotations.
Set Warnings "-register-all".
Open Scope string_scope.
Open Scope Z_scope.

(* ------------------------------------------------------------------ *)
(** * JSON values as returned by [response.json()]                      *)
(* ------------------------------------------------------------------ *)

(** Integers are [JNum]; a float is kept as the fraction [num / den]. *)
Inductive Json : Type :=
| JNull
| JBool (b : bool)
| JNum (z : Z)
| JFloat (num : Z) (den : positive)
| JStr (s : string)
| JArr (xs : list Json)
| JObj (kvs : list (string * Json)).

(** [d.get(k)] on a dict built by [json.loads]: when a key is repeated
    the last binding wins. *)
Definition dict_get (kvs : list (string * Json)) (k : string) : option Json :=
  fold_left (fun acc kv => if String.eqb (fst kv) k then Some (snd kv) else acc)
            kvs None.

(** [d.get(k, default)] *)
Definition dict_get_default (kvs : list (string * Json)) (k : string) (dflt : Json) : Json :=
  match dict_get kvs k with Some v => v | None => dflt end.

(** Python's [v != 0] for a decoded JSON value ([False == 0], [True == 1];
    no value of another type equals 0). *)
Definition py_ne_zero (v : Json) : bool :=
  match v with
  | JNum z => negb (Z.eqb z 0)
  | JFloat q _ => negb (Z.eqb q 0)
  | JBool b => b
  | _ => true
  end.

(* ------------------------------------------------------------------ *)
(** * Exceptions (src/kling/exceptions.py, plus the Python built-ins the
      code can raise)                                                   *)
(* ------------------------------------------------------------------ *)

Inductive Exn : Type :=
(** [KlingAPIError(message, code, request_id)]; the fields hold whatever
    Python object was passed, hence [Json]. *)
| KlingAPIError (message : Json) (code : Json) (request_id : Json)
(** [KlingTimeoutError(f"Task {task_id} did not complete within {timeout} seconds")]:
    the two interpolated values. *)
| KlingTimeoutError (task_id : string) (timeout : Z)
(** pydantic's validation error raised by a request model. *)
| ValidationError (field : string)
(** [ValueError] raised by [time.sleep] on a negative length. *)
| ValueError (msg : string)
(** [AttributeError] raised by [.get] on a non-dict JSON value. *)
| AttributeError (msg : string).

(** [isinstance(e, KlingAPIError)] *)
Definition is_kling_api_error (e : Exn) : bool :=
  match e with KlingAPIError _ _ _ => true | _ => false end.

(* ------------------------------------------------------------------ *)
(** * Polling loop (BaseAPIClient.wait_for_completion and
      BaseAPIClient.wait_for_completion_async, base.py 140-232)          *)
(* ------------------------------------------------------------------ *)

(** The fields of a TaskResponse the loop reads. *)
Record TaskResponse := mkTask {
  task_id : string;
  task_status : string;
  task_status_msg : option string
}.

(** The environment of one polling run, indexed by the 0-based number of
    the fetch: what [get_task_func] returns, how long (clock units) that
    call takes, and how much longer than requested the sleep after it
    lasts (the OS never wakes a sleeper early). *)
Record Env := mkEnv {
  fetch : nat -> TaskResponse;
  fetch_time : nat -> Z;
  oversleep : nat -> Z
}.

(** Observable state of one run: fetches performed, the clock
    ([time.time()]) and the total time spent suspended in sleep. *)
Record PollState := mkPollState {
  fetches : nat;
  clock : Z;
  slept : Z
}.

Definition init_state : PollState := mkPollState 0 0 0.

(** [task.task_status_msg or "Task failed"]: [None] and [""] are falsy. *)
Definition failure_message (t : TaskResponse) : string :=
  match task_status_msg t with
  | Some s => if String.eqb s "" then "Task failed" else s
  | None => "Task failed"
  end.

(** Sync: [time.sleep(poll_interval)] raises [ValueError] on a negative
    length.  Async: [asyncio.sleep(poll_interval)] with a non-positive
    length only yields to the event loop.  In both modes the suspension
    lasts [max 0 poll_interval] plus the oversleep of this iteration. *)
Definition sleep (is_sync : bool) (poll_interval extra : Z) (st : PollState)
  : Exn + PollState :=
  if is_sync && (poll_interval <? 0)
  then inl (ValueError "sleep length must be non-negative")
  else let d := Z.max 0 poll_interval + extra in
       inr (mkPollState (fetches st) (clock st + d) (slept st + d)).

Definition Outcome := ((TaskResponse + Exn) * PollState)%type.

(** The [while True] loop, one iteration per unit of fuel; [None] only
    when the fuel runs out. *)
Fixpoint poll_loop (is_sync : bool) (env : Env) (tid : string)
         (poll_interval timeout start : Z) (fuel : nat) (st : PollState)
  : option Outcome :=
  match fuel with
  | O => None
  | S fuel' =>
      let n := fetches st in
      let task := fetch env n in
      let st1 := mkPollState (S n) (clock st + fetch_time env n) (slept st) in
      if String.eqb (task_status task) "succeed" then Some (inl task, st1)
      else if String.eqb (task_status task) "failed" then
        Some (inr (KlingAPIError (JStr (failure_message task)) (JNum (-1)) (JStr "")), st1)
      else
        let elapsed := clock st1 - start in
        if timeout <=? elapsed then Some (inr (KlingTimeoutError tid timeout), st1)
        else match sleep is_sync poll_interval (oversleep env n) st1 with
             | inl e => Some (inr e, st1)
             | inr st2 => poll_loop is_sync env tid poll_interval timeout start fuel' st2
             end
  end.

(** [start_time = time.time()] is taken as clock origin 0. *)
Definition wait_for_completion (env : Env) (tid : string) (poll_interval timeout : Z)
           (fuel : nat) : option Outcome :=
  poll_loop true env tid poll_interval timeout 0 fuel init_state.

Definition wait_for_completion_async (env : Env) (tid : string) (poll_interval timeout : Z)
           (fuel : nat) : option Outcome :=
  poll_loop false env tid poll_interval timeout 0 fuel init_state.

(** Clock reading when fetch [j] (0-based) starts, and total sleep so
    far, when none of the earlier iterations stopped the loop. *)
Fixpoint clock_before (env : Env) (poll_interval : Z) (j : nat) : Z :=
  match j with
  | O => 0
  | S j' => clock_before env poll_interval j' + fetch_time env j'
            + (Z.max 0 poll_interval + oversleep env j')
  end.

Fixpoint slept_before (env : Env) (poll_interval : Z) (j : nat) : Z :=
  match j with
  | O => 0
  | S j' => slept_before env poll_interval j' + (Z.max 0 poll_interval + oversleep env j')
  end.

(** The state at the start of iteration [j]. *)
Definition state_at (env : Env) (poll_interval : Z) (j : nat) : PollState :=
  mkPollState j (clock_before env poll_interval j) (slept_before env poll_interval j).

(** Elapsed time seen by the timeout check of iteration [j]. *)
Definition elapsed_at (env : Env) (poll_interval : Z) (j : nat) : Z :=
  clock_before env poll_interval j + fetch_time env j.


(* ------------------------------------------------------------------ *)
(** * Response handling (BaseAPIClient._handle_response, base.py 59-78) *)
(* ------------------------------------------------------------------ *)

(** The body as [response.json()] sees it: [None] when it is not valid
    JSON (the [except Exception] branch). *)
Definition Body := option Json.

Definition handle_response (body : Body) : Json + Exn :=
  match body with
  | None =>
      inr (KlingAPIError (JStr "Invalid JSON response from API") (JNum (-1)) (JStr ""))
  | Some (JObj kvs) =>
      if py_ne_zero (dict_get_default kvs "code" (JNum 0)) then
        inr (KlingAPIError (dict_get_default kvs "message" (JStr "Unknown error"))
                           (dict_get_default kvs "code" (JNum (-1)))
                           (dict_get_default kvs "request_id" (JStr "")))
      else inl (JObj kvs)
  (** lists, strings, numbers, booleans and null have no [.get] *)
  | Some _ => inr (AttributeError "object has no attribute 'get'")
  end.

(* ------------------------------------------------------------------ *)
(** * Image-to-video request construction
      (ImageToVideoAPI.create, _create_single_image, _create_multi_image,
       api/image_to_video.py 30-127; request models in models/video.py) *)
(* ------------------------------------------------------------------ *)

Definition single_endpoint : string := "/v1/videos/image2video".
Definition multi_endpoint : string := "/v1/videos/multi-image2video".

(** An element of [images] / [image_list]: [Union[str, dict, ImageInput]]. *)
Inductive ImgArg : Type :=
| ImgStr (s : string)
| ImgDict (kvs : list (string * Json))
| ImgInput (image : string).

(** [images or image_list]: a [None] or empty [images] falls through to
    [image_list]. *)
Definition py_or_list (a b : option (list ImgArg)) : option (list ImgArg) :=
  match a with
  | Some (_ :: _) => a
  | _ => b
  end.

(** Truthiness of [multi_images]. *)
Definition truthy_list (a : option (list ImgArg)) : bool :=
  match a with Some (_ :: _) => true | _ => false end.

(** The normalisation loop of [_create_multi_image]: a string becomes
    [ImageInput(image=s)], a dict [ImageInput( **d)] (its "image" entry
    must be a string), an [ImageInput] is kept. *)
Fixpoint normalize_images (imgs : list ImgArg) : list string + Exn :=
  match imgs with
  | [] => inl []
  | ImgStr s :: rest =>
      match normalize_images rest with inl l => inl (s :: l) | inr e => inr e end
  | ImgDict kvs :: rest =>
      match dict_get kvs "image" with
      | Some (JStr s) =>
          match normalize_images rest with inl l => inl (s :: l) | inr e => inr e end
      | _ => inr (ValidationError "image")
      end
  | ImgInput s :: rest =>
      match normalize_images rest with inl l => inl (s :: l) | inr e => inr e end
  end.

Definition opt_field (k : string) (v : option string) : list (string * Json) :=
  match v with Some s => [(k, JStr s)] | None => [] end.

Definition prompt_ok (p : option string) : bool :=
  match p with Some s => Nat.leb (String.length s) 2500 | None => true end.

(** [ImageToVideoRequest(image=image, prompt=prompt).model_dump(exclude_none=True)]:
    fields in declaration order, defaults included, [None]s dropped. *)
Definition image_to_video_request (image prompt : option string) : Json + Exn :=
  if prompt_ok prompt then
    inl (JObj ([("model_name", JStr "kling-v1")] ++ opt_field "image" image
               ++ opt_field "prompt" prompt
               ++ [("cfg_scale", JFloat 1 2); ("mode", JStr "std"); ("duration", JStr "5")]))
  else inr (ValidationError "prompt").

(** [MultiImageToVideoRequest(image_list=..., prompt=prompt).model_dump(exclude_none=True)]:
    [image_list] must have 1 to 4 entries and [prompt] is required. *)
Definition multi_image_to_video_request (imgs : list string) (prompt : option string)
  : Json + Exn :=
  if negb ((1 <=? length imgs)%nat && (length imgs <=? 4)%nat)
  then inr (ValidationError "image_list")
  else match prompt with
       | None => inr (ValidationError "prompt")
       | Some p =>
           if Nat.leb (String.length p) 2500 then
             inl (JObj [("model_name", JStr "kling-v1-6");
                        ("image_list", JArr (map (fun s => JObj [("image", JStr s)]) imgs));
                        ("prompt", JStr p); ("mode", JStr "std"); ("duration", JStr "5");
                        ("aspect_ratio", JStr "16:9")])
           else inr (ValidationError "prompt")
       end.

Definition create_single_image (image prompt : option string) : (string * Json) + Exn :=
  match image_to_video_request image prompt with
  | inl body => inl (single_endpoint, body)
  | inr e => inr e
  end.

Definition create_multi_image (images : list ImgArg) (prompt : option string)
  : (string * Json) + Exn :=
  match normalize_images images with
  | inr e => inr e
  | inl imgs =>
      match multi_image_to_video_request imgs prompt with
      | inl body => inl (multi_endpoint, body)
      | inr e => inr e
      end
  end.

(** [create(image, images, image_list, prompt=...)] up to the POST: the
    endpoint and JSON body handed to [self.client.post]. *)
Definition create (image : option string) (images image_list : option (list ImgArg))
           (prompt : option string) : (string * Json) + Exn :=
  let multi_images := py_or_list images image_list in
  if truthy_list multi_images then
    match multi_images with
    | Some l => create_multi_image l prompt
    | None => create_single_image image prompt
    end
  else create_single_image image prompt.

(* ------------------------------------------------------------------ *)
(** * HTTP client lifecycle (BaseAPIClient.__init__/close/close_async/
      __exit__/__aexit__, base.py 37-39 and 234-256; KlingClient,
      client.py 95-117)                                                *)
(* ------------------------------------------------------------------ *)

(** Whether each httpx client still holds its connection pool. *)
Record Clients := mkClients {
  client_open : bool;        (** [self._client = httpx.Client(...)] *)
  async_client_open : bool   (** [self._async_client = httpx.AsyncClient(...)] *)
}.

(** [__init__] creates both clients. *)
Definition base_init : Clients := mkClients true true.

(** [httpx.Client.close] and [httpx.AsyncClient.aclose] only act on a
    client that is not closed yet and never raise, so closing is a plain
    assignment of the closed state. *)
Definition close (c : Clients) : Clients := mkClients false (async_client_open c).

Definition close_async (c : Clients) : Clients := mkClients (client_open c) false.

(** [KlingClient.close] / [close_async] delegate to the base client. *)
Definition kling_close (c : Clients) : Clients := close c.

Definition kling_close_async (c : Clients) : Clients := close_async c.

(** [with client: body]: [__exit__] calls [self.close()] whether the body
    returned or raised, and returns [None], so an exception propagates. *)
Definition with_block {A : Type} (body : A + Exn) (c : Clients) : (A + Exn) * Clients :=
  (body, kling_close c).

(** [async with client: body]: [__aexit__] awaits [self.close_async()]. *)
Definition async_with_block {A : Type} (body : A + Exn) (c : Clients) : (A + Exn) * Clients :=
  (body, kling_close_async c).

(* ------------------------------------------------------------------ *)
(** * URLs, authentication and the adapters' own code checks           *)
(* ------------------------------------------------------------------ *)

(** [str.rstrip("/")] on the reversed characters: drop leading slashes. *)
Fixpoint drop_slashes (l : list ascii) : list ascii :=
  match l with
  | "/"%char :: t => drop_slashes t
  | _ => l
  end.

(** [base_url.rstrip("/")] (BaseAPIClient.__init__, base.py 33). *)
Definition rstrip_slash (s : string) : string :=
  string_of_list_ascii (rev (drop_slashes (rev (list_ascii_of_string s)))).

Definition ends_with_slash (s : string) : bool :=
  match rev (list_ascii_of_string s) with
  | "/"%char :: _ => true
  | _ => false
  end.

(** [url = f"{self.base_url}{endpoint}"] in post, post_async, get and
    get_async (base.py 90, 106, 120, 136), with [self.base_url] the
    stripped constructor argument. *)
Definition request_url (base_url endpoint : string) : string :=
  rstrip_slash base_url ++ endpoint.

(** [endpoint = f"{self.endpoint}/{task_id}"] in every adapter's [get]. *)
Definition status_endpoint (endpoint tid : string) : string :=
  endpoint ++ "/" ++ tid.

(** [ImageToVideoAPI.get(task_id, multi_image)] (image_to_video.py 160-161). *)
Definition image_to_video_status_endpoint (tid : string) (multi_image : bool) : string :=
  status_endpoint (if multi_image then multi_endpoint else single_endpoint) tid.

(** The payload of [_generate_jwt_token] (base.py 41-49) for a wall clock
    of [now_ms] milliseconds: [now = int(time.time())] truncates toward
    zero. *)
Definition jwt_payload (access_key : string) (now_ms : Z) : Json :=
  let now := Z.quot now_ms 1000 in
  JObj [("iss", JStr access_key); ("exp", JNum (now + 1800)); ("nbf", JNum (now - 5))].

(** The check the list methods (text_to_video.py 119-129,
    image_to_video.py 195-204, avatar.py, lip_sync.py 134-144,
    video_effects.py 73-83) and [LipSyncAPI.identify_faces]
    (lip_sync.py 42-52) run on the dict returned by [client.get] /
    [client.post]: [code != 0] raises with "" defaults, else the value
    [response.get("data", dflt)] ([[]] for lists, [{}] for faces) is
    handed on.  Only this check is modelled: the conversion that follows
    it ([[TaskResponse( **item) for item in data]],
    [IdentifyFaceResponse( **data)]) is not, since the response models
    it calls are not part of the sources, and it can raise on its own
    (e.g. a [null] data field). *)
Definition adapter_checked_data (dflt : Json) (response : Json) : Json + Exn :=
  match response with
  | JObj kvs =>
      let code := dict_get_default kvs "code" (JNum 0) in
      if py_ne_zero code then
        inr (KlingAPIError (dict_get_default kvs "message" (JStr "")) code
                           (dict_get_default kvs "request_id" (JStr "")))
      else inl (dict_get_default kvs "data" dflt)
  | _ => inr (AttributeError "object has no attribute 'get'")
  end.


(** The state right after fetch [p] (0-based). *)
Definition after_fetch (env : Env) (poll_interval : Z) (p : nat) : PollState :=
  mkPollState (S p) (elapsed_at env poll_interval p) (slept_before env poll_interval p).

(** Concrete environments. *)
Definition mk_task (s : string) : TaskResponse := mkTask "task-1" s None.

Definition ideal_env (f : nat -> TaskResponse) : Env :=
  mkEnv f (fun _ => 0) (fun _ => 0).

(** [pending, ..., pending, succeed] with the success at fetch [k-1]. *)
Definition succeed_at (k : nat) (n : nat) : TaskResponse :=
  if Nat.eqb (S n) k then mk_task "succeed" else mk_task "processing".

(* ------------------------------------------------------------------ *)
(** * Inputs and helpers used by the statements below                  *)
(* ------------------------------------------------------------------ *)

Definition failing_task : TaskResponse := mkTask "task-42" "failed" (Some "boom").




Definition insufficient_balance : list (string * Json) :=
  [("code", JNum 51004); ("message", JStr "insufficient balance"); ("request_id", JStr "abc")].

Definition is_obj (v : Json) : bool :=
  match v with JObj _ => true | _ => false end.

Definition invalid_json_error : Exn :=
  KlingAPIError (JStr "Invalid JSON response from API") (JNum (-1)) (JStr "").

(** The list [create] routes on: [images or image_list]. *)
Definition plural_images (images image_list : option (list ImgArg)) : list ImgArg :=
  match py_or_list images image_list with Some l => l | None => [] end.

(** The image string an element contributes: [s] for a string, the
    string [d["image"]] for a dict (none if absent or not a string), the
    [image] field of an [ImageInput]. *)
Definition img_arg_image (a : ImgArg) : option string :=
  match a with
  | ImgStr s => Some s
  | ImgDict kvs => match dict_get kvs "image" with Some (JStr s) => Some s | _ => None end
  | ImgInput s => Some s
  end.

(* ------------------------------------------------------------------ *)
(** * Generic facts about the loop                                     *)
(* ------------------------------------------------------------------ *)

Lemma poll_loop_S (is_sync : bool) (env : Env) (tid : string) (i t start : Z)
      (fuel : nat) (st : PollState) :
  poll_loop is_sync env tid i t start (S fuel) st =
  (let n := fetches st in
   let task := fetch env n in
   let st1 := mkPollState (S n) (clock st + fetch_time env n) (slept st) in
   if String.eqb (task_status task) "succeed" then Some (inl task, st1)
   else if String.eqb (task_status task) "failed" then
     Some (inr (KlingAPIError (JStr (failure_message task)) (JNum (-1)) (JStr "")), st1)
   else
     if t <=? clock st1 - start then Some (inr (KlingTimeoutError tid t), st1)
     else match sleep is_sync i (oversleep env n) st1 with
          | inl e => Some (inr e, st1)
          | inr st2 => poll_loop is_sync env tid i t start fuel st2
          end).
Proof. reflexivity. Qed.







Lemma init_state_at (env : Env) (i : Z) : init_state = state_at env i 0.
Proof. reflexivity. Qed.

Example wait_three :
  wait_for_completion (ideal_env (succeed_at 3)) "task-1" 5 600 10
  = Some (inl (mk_task "succeed"), mkPollState 3 10 10).
Proof. reflexivity. Qed.


(* ------------------------------------------------------------------ *)
(** * C1: success at the k-th fetch                                    *)
(* ------------------------------------------------------------------ *)




(* ------------------------------------------------------------------ *)
(** * C2: a failed task                                                *)
(* ------------------------------------------------------------------ *)

(** C2 (counterexample): the error raised for a failed task is a plain
    [KlingAPIError] with code -1 and an empty request id; it holds no
    task id, and the response handler raises the very same value for the
    envelope [{"code": -1, "message": "boom", "request_id": ""}], so the
    two cannot be told apart. *)
Lemma wait_failed_counterexample :
  let e := KlingAPIError (JStr "boom") (JNum (-1)) (JStr "") in
  wait_for_completion (ideal_env (fun _ => failing_task)) "task-42" 5 600 10
    = Some (inr e, mkPollState 1 0 0)
  /\ is_kling_api_error e = true
  /\ handle_response (Some (JObj [("code", JNum (-1)); ("message", JStr "boom");
                                  ("request_id", JStr "")])) = inr e.
Proof. repeat split; reflexivity. Qed.

(** C2 (amended): when the first fetch reports "failed", both loops
    stop after that single fetch, without sleeping, and raise
    [KlingAPIError(message, -1, "")] whose message is the server's
    [task_status_msg] verbatim when it is a non-empty string and
    "Task failed" otherwise; this is the exception class the response
    handler uses for envelope errors, and it carries no task id. *)
Theorem wait_first_failed (env : Env) (tid : string) (i t : Z) (fuel : nat)
  (Hfuel : (1 <= fuel)%nat)
  (Hfail : task_status (fetch env 0) = "failed") :
  let e := KlingAPIError (JStr (failure_message (fetch env 0))) (JNum (-1)) (JStr "") in
  wait_for_completion env tid i t fuel = Some (inr e, mkPollState 1 (fetch_time env 0) 0)
  /\ wait_for_completion_async env tid i t fuel = Some (inr e, mkPollState 1 (fetch_time env 0) 0)
  /\ is_kling_api_error e = true
  /\ (forall s, task_status_msg (fetch env 0) = Some s -> s <> "" ->
                failure_message (fetch env 0) = s)
  /\ (task_status_msg (fetch env 0) = None \/ task_status_msg (fetch env 0) = Some "" ->
      failure_message (fetch env 0) = "Task failed").
Proof.
  destruct fuel as [|fuel]; [lia|].
  unfold wait_for_completion, wait_for_completion_async.
  rewrite !poll_loop_S. cbn zeta. simpl fetches. rewrite Hfail.
  repeat split.
  - intros s Hs Hne. unfold failure_message. rewrite Hs.
    destruct (String.eqb_spec s ""); [contradiction|reflexivity].
  - intros [H|H]; unfold failure_message; rewrite H; reflexivity.
Qed.

Lemma wait_first_failed_witness :
  let env := ideal_env (fun _ => failing_task) in
  let e := KlingAPIError (JStr (failure_message (fetch env 0))) (JNum (-1)) (JStr "") in
  wait_for_completion env "task-42" 5 600 10 = Some (inr e, mkPollState 1 (fetch_time env 0) 0)
  /\ wait_for_completion_async env "task-42" 5 600 10
     = Some (inr e, mkPollState 1 (fetch_time env 0) 0)
  /\ is_kling_api_error e = true
  /\ (forall s, task_status_msg (fetch env 0) = Some s -> s <> "" ->
                failure_message (fetch env 0) = s)
  /\ (task_status_msg (fetch env 0) = None \/ task_status_msg (fetch env 0) = Some "" ->
      failure_message (fetch env 0) = "Task failed").
Proof.
  apply (wait_first_failed (ideal_env (fun _ => failing_task)) "task-42" 5 600 10).
  - lia.
  - reflexivity.
Defined.

(* ------------------------------------------------------------------ *)
(** * C3: a task that never reaches a terminal status                  *)
(* ------------------------------------------------------------------ *)








(* ------------------------------------------------------------------ *)
(** * C4: unrecognised status strings                                  *)
(* ------------------------------------------------------------------ *)






(* ------------------------------------------------------------------ *)
(** * C5: non-positive poll intervals                                  *)
(* ------------------------------------------------------------------ *)






(* ------------------------------------------------------------------ *)
(** * C6: envelopes with a non-zero code                               *)
(* ------------------------------------------------------------------ *)

(** C6: for a JSON object carrying [code], [message] and [request_id],
    a numeric code other than 0 makes the handler raise
    [KlingAPIError] with exactly those three values, and code 0 makes it
    return the parsed object unchanged. *)
Theorem handle_response_envelope (kvs : list (string * Json)) (c : Z) (m r : Json)
  (Hcode : dict_get kvs "code" = Some (JNum c))
  (Hmsg : dict_get kvs "message" = Some m)
  (Hrid : dict_get kvs "request_id" = Some r) :
  (c <> 0 -> handle_response (Some (JObj kvs)) = inr (KlingAPIError m (JNum c) r))
  /\ (c = 0 -> handle_response (Some (JObj kvs)) = inl (JObj kvs)).
Proof.
  unfold handle_response, dict_get_default. rewrite Hcode, Hmsg, Hrid. simpl py_ne_zero.
  split; intros Hc.
  - destruct (Z.eqb_spec c 0); [contradiction|reflexivity].
  - subst c. reflexivity.
Qed.

Lemma handle_response_envelope_witness :
  (51004 <> 0 -> handle_response (Some (JObj insufficient_balance))
                 = inr (KlingAPIError (JStr "insufficient balance") (JNum 51004) (JStr "abc")))
  /\ (51004 = 0 -> handle_response (Some (JObj insufficient_balance))
                   = inl (JObj insufficient_balance)).
Proof.
  apply (handle_response_envelope insufficient_balance 51004
           (JStr "insufficient balance") (JStr "abc")); reflexivity.
Defined.

(* ------------------------------------------------------------------ *)
(** * C7: bodies that are not an envelope                              *)
(* ------------------------------------------------------------------ *)

(** C7 (counterexample): [{}] has none of the envelope fields yet is
    returned as a success; a body that is not JSON raises a
    [KlingAPIError] equal to the one raised for the well-formed envelope
    [{"code": -1, "message": "Invalid JSON response from API",
    "request_id": ""}]; a JSON list raises [AttributeError]. *)
Lemma malformed_body_counterexample :
  handle_response (Some (JObj [])) = inl (JObj [])
  /\ handle_response None = inr invalid_json_error
  /\ handle_response (Some (JObj [("code", JNum (-1));
                                  ("message", JStr "Invalid JSON response from API");
                                  ("request_id", JStr "")])) = inr invalid_json_error
  /\ handle_response (Some (JArr [])) = inr (AttributeError "object has no attribute 'get'").
Proof. repeat split; reflexivity. Qed.

(** C7 (amended): a body that is not valid JSON raises
    [KlingAPIError("Invalid JSON response from API", -1, "")], the same
    exception class as an envelope error; valid JSON that is not an
    object raises Python's [AttributeError]; a JSON object whose [code]
    is absent or equals 0 is returned as it is, whatever other fields it
    has or lacks. *)
Theorem handle_response_malformed :
  handle_response None = inr invalid_json_error
  /\ is_kling_api_error invalid_json_error = true
  /\ (forall v, is_obj v = false ->
        handle_response (Some v) = inr (AttributeError "object has no attribute 'get'"))
  /\ (forall kvs, py_ne_zero (dict_get_default kvs "code" (JNum 0)) = false ->
        handle_response (Some (JObj kvs)) = inl (JObj kvs)).
Proof.
  split; [reflexivity|]. split; [reflexivity|]. split.
  - intros [] H; try reflexivity; discriminate H.
  - intros kvs H. unfold handle_response. rewrite H. reflexivity.
Qed.

(* ------------------------------------------------------------------ *)
(** * C8: image-to-video routing                                       *)
(* ------------------------------------------------------------------ *)

(** A successful normalisation keeps, in order, the image string of
    every element. *)
Lemma normalize_images_image (imgs : list ImgArg) (l : list string) :
  normalize_images imgs = inl l -> map Some l = map img_arg_image imgs.
Proof.
  revert l. induction imgs as [|a rest IH]; intros l H; simpl in H.
  - injection H as <-. reflexivity.
  - destruct a as [s|kvs|s]; simpl.
    + destruct (normalize_images rest) eqn:E; [|discriminate].
      injection H as <-. simpl. f_equal. apply IH. reflexivity.
    + destruct (dict_get kvs "image") as [[]|]; try discriminate.
      destruct (normalize_images rest) eqn:E; [|discriminate].
      injection H as <-. simpl. f_equal. apply IH. reflexivity.
    + destruct (normalize_images rest) eqn:E; [|discriminate].
      injection H as <-. simpl. f_equal. apply IH. reflexivity.
Qed.

(** C8 (counterexample): a single reference image passed as
    [images=["a.jpg"]] is routed to the multi-image endpoint with an
    [image_list] body, not to the single-image path. *)
Lemma create_routing_counterexample :
  create None (Some [ImgStr "a.jpg"]) None (Some "p")
  = inl (multi_endpoint,
         JObj [("model_name", JStr "kling-v1-6");
               ("image_list", JArr [JObj [("image", JStr "a.jpg")]]);
               ("prompt", JStr "p"); ("mode", JStr "std"); ("duration", JStr "5");
               ("aspect_ratio", JStr "16:9")]).
Proof. reflexivity. Qed.

(** C8 (amended): [create] routes on whether [images or image_list] is a
    non-empty list, not on the number of images.  Non-empty: the request
    goes to the multi-image endpoint; its body has an [image_list]
    holding, in order, one object [{"image": s}] per element of that
    list, where [s] is the element's image string ([img_arg_image]: the
    string itself, a dict's "image" entry, an [ImageInput]'s [image]),
    and no [image] field.  Otherwise: it goes to the single-image endpoint with no
    [image_list] field and [image] set to the [image] argument when one
    is given.  The only other outcome is a validation error. *)
Theorem create_routing (image : option string) (images image_list : option (list ImgArg))
  (prompt : option string) :
  match create image images image_list prompt with
  | inl (ep, body) =>
      if truthy_list (py_or_list images image_list) then
        ep = multi_endpoint
        /\ exists kvs imgs, body = JObj kvs
             /\ dict_get kvs "image_list"
                = Some (JArr (map (fun s => JObj [("image", JStr s)]) imgs))
             /\ map Some imgs = map img_arg_image (plural_images images image_list)
             /\ dict_get kvs "image" = None
      else
        ep = single_endpoint
        /\ exists kvs, body = JObj kvs
             /\ dict_get kvs "image_list" = None
             /\ dict_get kvs "image" = option_map JStr image
  | inr e => exists f, e = ValidationError f
  end.
Proof.
  unfold create, plural_images.
  destruct (truthy_list (py_or_list images image_list)) eqn:Ht.
  - destruct (py_or_list images image_list) as [l|]; [|discriminate].
    unfold create_multi_image.
    destruct (normalize_images l) as [imgs|e] eqn:En; [|].
    2:{ revert En. clear. induction l as [|a rest IH]; simpl; [discriminate|].
        destruct a as [s|kvs|s];
          try (destruct (dict_get kvs "image") as [[]|]);
          try (intros H; injection H as <-; eexists; reflexivity);
          destruct (normalize_images rest); try discriminate; auto. }
    unfold multi_image_to_video_request.
    destruct (negb _); [eexists; reflexivity|].
    destruct prompt as [p|]; [|eexists; reflexivity].
    destruct (Nat.leb _ 2500); [|eexists; reflexivity].
    split; [reflexivity|].
    do 2 eexists. split; [reflexivity|]. split; [reflexivity|].
    split; [|reflexivity].
    apply normalize_images_image. exact En.
  - unfold create_single_image, image_to_video_request.
    destruct (prompt_ok prompt); [|eexists; reflexivity].
    split; [reflexivity|]. eexists. split; [reflexivity|].
    destruct image, prompt; split; reflexivity.
Qed.

(* ------------------------------------------------------------------ *)
(** * C9: closing the clients                                          *)
(* ------------------------------------------------------------------ *)

(** C9 (code bug): [close()], documented as "Close HTTP clients.",
    leaves the [httpx.AsyncClient] created by the constructor open, also
    when it runs as the exit of a [with] block. *)
Lemma close_counterexample :
  async_client_open (kling_close base_init) = true
  /\ async_client_open (snd (with_block (inr (ValueError "boom") : unit + Exn) base_init)) = true.
Proof. split; reflexivity. Qed.

(** C9 (what the code does): [close()] releases the blocking client and leaves the
    non-blocking one as it was; [close_async()] releases the non-blocking
    client and leaves the blocking one; each is idempotent; after both,
    in either order, no client is open; a [with] block closes the blocking
    client on both the normal and the exception exit, and an
    [async with] block closes the non-blocking one. *)
Theorem close_releases (c : Clients) :
  client_open (kling_close c) = false
  /\ async_client_open (kling_close c) = async_client_open c
  /\ async_client_open (kling_close_async c) = false
  /\ client_open (kling_close_async c) = client_open c
  /\ kling_close (kling_close c) = kling_close c
  /\ kling_close_async (kling_close_async c) = kling_close_async c
  /\ kling_close_async (kling_close c) = mkClients false false
  /\ kling_close (kling_close_async c) = mkClients false false
  /\ (forall (A : Type) (body : A + Exn),
        fst (with_block body c) = body
        /\ client_open (snd (with_block body c)) = false
        /\ async_client_open (snd (with_block body c)) = async_client_open c
        /\ fst (async_with_block body c) = body
        /\ async_client_open (snd (async_with_block body c)) = false
        /\ client_open (snd (async_with_block body c)) = client_open c).
Proof. destruct c as [a b]. repeat split. Qed.

(* ------------------------------------------------------------------ *)
(** * C10: terminal statuses are checked before the timeout            *)
(* ------------------------------------------------------------------ *)

(** C10: in every iteration, whatever the clock, the start time and the
    timeout, a fetch reporting "succeed" is returned and a fetch
    reporting "failed" raises the task-failure [KlingAPIError], in the
    sync and the async loop alike: the timeout check is never reached in
    such an iteration, even when the budget was already spent before the
    fetch. *)
Theorem terminal_before_timeout (is_sync : bool) (env : Env) (tid : string)
  (i t start : Z) (fuel : nat) (st : PollState) :
  let n := fetches st in
  let st1 := mkPollState (S n) (clock st + fetch_time env n) (slept st) in
  (task_status (fetch env n) = "succeed" ->
     poll_loop is_sync env tid i t start (S fuel) st = Some (inl (fetch env n), st1))
  /\ (task_status (fetch env n) = "failed" ->
     poll_loop is_sync env tid i t start (S fuel) st
     = Some (inr (KlingAPIError (JStr (failure_message (fetch env n))) (JNum (-1)) (JStr "")),
             st1)).
Proof.
  intros n st1. split; intros H; rewrite poll_loop_S; cbn zeta; fold n; rewrite H;
    reflexivity.
Qed.

(* ------------------------------------------------------------------ *)
(** * Further properties of the SDK                                    *)
(* ------------------------------------------------------------------ *)

Lemma list_ascii_of_string_app (s t : string) :
  list_ascii_of_string (s ++ t) = (list_ascii_of_string s ++ list_ascii_of_string t)%list.
Proof. induction s as [|c s IH]; simpl; [reflexivity|]. rewrite IH. reflexivity. Qed.

Lemma drop_slashes_idem (l : list ascii) : drop_slashes (drop_slashes l) = drop_slashes l.
Proof.
  induction l as [|c l IH]; [reflexivity|].
  simpl. destruct (Ascii.eqb_spec c "/"%char) as [->|Hc]; [exact IH|].
  destruct c as [[] [] [] [] [] [] [] []]; try reflexivity; exfalso; apply Hc; reflexivity.
Qed.

Lemma drop_slashes_head (l : list ascii) :
  match drop_slashes l with "/"%char :: _ => False | _ => True end.
Proof.
  induction l as [|c l IH]; [exact I|].
  simpl. destruct (Ascii.eqb_spec c "/"%char) as [->|Hc]; [exact IH|].
  destruct c as [[] [] [] [] [] [] [] []]; try exact I; exfalso; apply Hc; reflexivity.
Qed.

Lemma drop_slashes_nohead (l : list ascii) :
  match l with "/"%char :: _ => False | _ => True end -> drop_slashes l = l.
Proof.
  destruct l as [|c l]; [reflexivity|].
  destruct c as [[] [] [] [] [] [] [] []]; intros H; try reflexivity; contradiction.
Qed.

(** X1: [base_url.rstrip("/")] never ends with a slash, stripping again
    changes nothing, and a base URL without a trailing slash is kept as
    it is. *)
Theorem rstrip_slash_spec (s : string) :
  ends_with_slash (rstrip_slash s) = false
  /\ rstrip_slash (rstrip_slash s) = rstrip_slash s
  /\ (ends_with_slash s = false -> rstrip_slash s = s).
Proof.
  unfold rstrip_slash, ends_with_slash.
  rewrite !list_ascii_of_string_of_list_ascii, !rev_involutive.
  split; [|split].
  - pose proof (drop_slashes_head (rev (list_ascii_of_string s))) as H.
    destruct (drop_slashes _) as [|c l]; [reflexivity|].
    destruct c as [[] [] [] [] [] [] [] []]; try reflexivity; contradiction.
  - rewrite drop_slashes_idem. reflexivity.
  - intros H. rewrite drop_slashes_nohead.
    + rewrite rev_involutive, string_of_list_ascii_of_string. reflexivity.
    + destruct (rev (list_ascii_of_string s)) as [|c l]; [exact I|].
      destruct c as [[] [] [] [] [] [] [] []]; try exact I; discriminate H.
Qed.

(** X2: the request URL does not depend on trailing slashes of the base
    URL: [base_url + "/"] and [base_url] give the same URL for every
    endpoint, in post, get and their async variants. *)
Theorem request_url_trailing_slash (base endpoint : string) :
  request_url (base ++ "/") endpoint = request_url base endpoint.
Proof.
  unfold request_url, rstrip_slash.
  rewrite list_ascii_of_string_app, rev_app_distr. reflexivity.
Qed.

Lemma string_app_cancel_l (s t1 t2 : string) : s ++ t1 = s ++ t2 -> t1 = t2.
Proof.
  induction s as [|c s IH]; simpl; intros H; [exact H|].
  injection H as H. apply IH. exact H.
Qed.

(** X3: the status URL of [get] determines the task id: two different
    ids (server ids or external ids alike) never share a status URL under
    the same base URL and endpoint; and [ImageToVideoAPI.get] asks a
    different URL for the same id depending on [multi_image]. *)
Theorem status_url_injective (base endpoint t1 t2 : string) :
  (request_url base (status_endpoint endpoint t1)
   = request_url base (status_endpoint endpoint t2) -> t1 = t2)
  /\ image_to_video_status_endpoint t1 true <> image_to_video_status_endpoint t1 false.
Proof.
  split.
  - unfold request_url, status_endpoint. intros H.
    apply string_app_cancel_l in H. apply string_app_cancel_l in H.
    apply string_app_cancel_l in H. exact H.
  - unfold image_to_video_status_endpoint, status_endpoint. simpl. discriminate.
Qed.

(** X4: a token minted at wall-clock time [t >= 0] (milliseconds) has a
    not-before at least 5 s before [t] and an expiry more than 1799 s
    after [t]; the validity window is 1805 s long. *)
Theorem jwt_validity_window (access_key : string) (t : Z) (Ht : 0 <= t) :
  exists nbf exp,
    jwt_payload access_key t
      = JObj [("iss", JStr access_key); ("exp", JNum exp); ("nbf", JNum nbf)]
    /\ nbf * 1000 <= t - 5000
    /\ t + 1799000 < exp * 1000
    /\ exp - nbf = 1805.
Proof.
  unfold jwt_payload.
  rewrite Z.quot_div_nonneg by lia.
  pose proof (Z.div_mod t 1000 ltac:(lia)) as Hdm.
  pose proof (Z.mod_pos_bound t 1000 ltac:(lia)) as Hb.
  do 2 eexists. split; [reflexivity|]. lia.
Qed.

Lemma jwt_validity_window_witness :
  exists nbf exp,
    jwt_payload "ak-1" 1700000000123
      = JObj [("iss", JStr "ak-1"); ("exp", JNum exp); ("nbf", JNum nbf)]
    /\ nbf * 1000 <= 1700000000123 - 5000
    /\ 1700000000123 + 1799000 < exp * 1000
    /\ exp - nbf = 1805.
Proof. apply (jwt_validity_window "ak-1" 1700000000123). lia. Defined.

Lemma handle_response_inl (body : Body) (r : Json) :
  handle_response body = inl r ->
  exists kvs, body = Some (JObj kvs) /\ r = JObj kvs
              /\ py_ne_zero (dict_get_default kvs "code" (JNum 0)) = false.
Proof.
  destruct body as [[| | | | | |kvs]|]; simpl; try discriminate.
  destruct (py_ne_zero _) eqn:E; [discriminate|].
  intros H. injection H as <-. eauto.
Qed.

(** X5: the code check that the list methods and [identify_faces] run
    on what [client.get]/[client.post] returned never fires: whatever
    [_handle_response] returned is a dict whose code passes the check,
    and what the check hands on to the response-model conversion is its
    [data] field, or the default ([[]] for lists, [{}] for faces) when
    it is absent. *)
Theorem adapter_check_unreachable (dflt : Json) (body : Body) (r : Json)
  (H : handle_response body = inl r) :
  exists kvs, r = JObj kvs
    /\ adapter_checked_data dflt r = inl (dict_get_default kvs "data" dflt).
Proof.
  destruct (handle_response_inl body r H) as [kvs [_ [-> Hc]]].
  exists kvs. split; [reflexivity|]. simpl. rewrite Hc. reflexivity.
Qed.

Lemma adapter_check_unreachable_witness :
  handle_response (Some (JObj [("code", JNum 0); ("data", JNull)]))
  = inl (JObj [("code", JNum 0); ("data", JNull)])
  /\ exists kvs, JObj [("code", JNum 0); ("data", JNull)] = JObj kvs
     /\ adapter_checked_data (JArr [])
          (JObj [("code", JNum 0); ("data", JNull)])
        = inl (dict_get_default kvs "data" (JArr [])).
Proof.
  split; [reflexivity|].
  apply (adapter_check_unreachable (JArr []) (Some (JObj [("code", JNum 0); ("data", JNull)]))).
  reflexivity.
Defined.

(** X6: the envelope check is Python's [!=] against 0: a string-valued
    [code] always raises, even ["0"], with that string as the error's
    code, while an absent [code], [0.0] and [false] all count as
    success. *)
Theorem envelope_code_check (kvs : list (string * Json)) :
  (forall s, dict_get kvs "code" = Some (JStr s) ->
     handle_response (Some (JObj kvs))
     = inr (KlingAPIError (dict_get_default kvs "message" (JStr "Unknown error")) (JStr s)
                          (dict_get_default kvs "request_id" (JStr ""))))
  /\ ((dict_get kvs "code" = None
       \/ (exists d, dict_get kvs "code" = Some (JFloat 0 d))
       \/ dict_get kvs "code" = Some (JBool false)) ->
      handle_response (Some (JObj kvs)) = inl (JObj kvs)).
Proof.
  unfold handle_response, dict_get_default. split.
  - intros s H. rewrite H. reflexivity.
  - intros [H|[[d H]|H]]; rewrite H; reflexivity.
Qed.

Lemma normalize_strings (l : list string) :
  normalize_images (map ImgStr l) = inl l.
Proof. induction l as [|s l IH]; simpl; [reflexivity|]. rewrite IH. reflexivity. Qed.

(** X7: with [images] a list of 1 to 4 strings and a prompt of at most
    2500 characters, [create] posts to the multi-image endpoint a body
    whose [image_list] holds one [{"image": s}] per string, in the
    caller's order; the [image] and [image_list] arguments are ignored. *)
Theorem create_multi_image_body (image : option string) (l : list string)
  (image_list : option (list ImgArg)) (p : string)
  (Hlen : (1 <= length l <= 4)%nat) (Hp : (String.length p <= 2500)%nat) :
  create image (Some (map ImgStr l)) image_list (Some p)
  = inl (multi_endpoint,
         JObj [("model_name", JStr "kling-v1-6");
               ("image_list", JArr (map (fun s => JObj [("image", JStr s)]) l));
               ("prompt", JStr p); ("mode", JStr "std"); ("duration", JStr "5");
               ("aspect_ratio", JStr "16:9")]).
Proof.
  destruct l as [|s l]; [simpl in Hlen; lia|].
  unfold create, py_or_list, truthy_list. simpl map.
  unfold create_multi_image. rewrite <- (map_cons ImgStr s l), normalize_strings.
  unfold multi_image_to_video_request.
  replace ((1 <=? length (s :: l))%nat && (length (s :: l) <=? 4)%nat) with true
    by (symmetry; apply andb_true_iff; split; apply Nat.leb_le; lia).
  simpl negb. cbv iota.
  replace (Nat.leb (String.length p) 2500) with true by (symmetry; apply Nat.leb_le; lia).
  reflexivity.
Qed.

Lemma create_multi_image_body_witness :
  create (Some "ignored.jpg") (Some (map ImgStr ["a.jpg"; "b.jpg"])) None (Some "two people")
  = inl (multi_endpoint,
         JObj [("model_name", JStr "kling-v1-6");
               ("image_list", JArr (map (fun s => JObj [("image", JStr s)]) ["a.jpg"; "b.jpg"]));
               ("prompt", JStr "two people"); ("mode", JStr "std"); ("duration", JStr "5");
               ("aspect_ratio", JStr "16:9")]).
Proof.
  apply (create_multi_image_body (Some "ignored.jpg") ["a.jpg"; "b.jpg"] None "two people").
  - simpl. lia.
  - vm_compute. lia.
Defined.

(** Every error of the normalisation loop is the one raised for a dict
    without a string "image" entry. *)
Lemma normalize_images_error (l : list ImgArg) (e : Exn) :
  normalize_images l = inr e -> e = ValidationError "image".
Proof.
  induction l as [|a rest IH]; simpl; [discriminate|].
  destruct a as [s|kvs|s];
    try (destruct (dict_get kvs "image") as [[]|]);
    try (intros H; injection H as <-; reflexivity);
    destruct (normalize_images rest); try discriminate; auto.
Qed.

(** A dict without a string "image" entry anywhere in the list makes the
    normalisation fail, whatever the other elements are. *)
Lemma normalize_images_bad_dict (pre post : list ImgArg) (kvs : list (string * Json))
  (H : forall s, dict_get kvs "image" <> Some (JStr s)) :
  normalize_images ((pre ++ ImgDict kvs :: post)%list) = inr (ValidationError "image").
Proof.
  induction pre as [|a pre IH]; simpl.
  - destruct (dict_get kvs "image") as [[]|]; try reflexivity.
    exfalso. eapply H. reflexivity.
  - rewrite IH. destruct a as [s|kvs'|s]; try reflexivity.
    destruct (dict_get kvs' "image") as [[]|]; reflexivity.
Qed.

(** Elements that all carry an image string normalise without error, to
    one string each. *)
Lemma normalize_images_ok (l : list ImgArg)
  (H : Forall (fun a => img_arg_image a <> None) l) :
  exists imgs, normalize_images l = inl imgs /\ length imgs = length l.
Proof.
  induction H as [|a l Ha Hl IH]; simpl; [exists []; split; reflexivity|].
  destruct IH as [imgs [E Hlen]].
  destruct a as [s|kvs|s]; simpl in Ha |- *.
  - rewrite E. exists (s :: imgs). simpl. split; [reflexivity|lia].
  - destruct (dict_get kvs "image") as [[]|]; try (exfalso; apply Ha; reflexivity).
    rewrite E. eexists. split; [reflexivity|]. simpl. lia.
  - rewrite E. exists (s :: imgs). simpl. split; [reflexivity|lia].
Qed.

(** With a non-empty [images or image_list], [create] is the multi-image
    path on that list. *)
Lemma create_multi_route (image : option string) (images image_list : option (list ImgArg))
  (prompt : option string) (a : ImgArg) (l : list ImgArg)
  (H : py_or_list images image_list = Some (a :: l)) :
  create image images image_list prompt = create_multi_image (a :: l) prompt.
Proof. unfold create. rewrite H. reflexivity. Qed.

(** X8: multi-image input errors are raised before any request is
    built, whether the list comes in through [images] or [image_list]:
    more than four elements that each carry an image string fail with a
    validation error on [image_list]; a dict without a string "image"
    entry at any position fails on [image] (normalisation runs first,
    whatever the other elements and the prompt); one to four such
    elements with no prompt fail on [prompt]. *)
Theorem create_multi_image_errors (image : option string)
  (images image_list : option (list ImgArg)) (prompt : option string) :
  (forall l, py_or_list images image_list = Some l ->
     Forall (fun a => img_arg_image a <> None) l -> (4 < length l)%nat ->
     create image images image_list prompt = inr (ValidationError "image_list"))
  /\ (forall pre kvs post,
     py_or_list images image_list = Some ((pre ++ ImgDict kvs :: post)%list) ->
     (forall s, dict_get kvs "image" <> Some (JStr s)) ->
     create image images image_list prompt = inr (ValidationError "image"))
  /\ (forall l, py_or_list images image_list = Some l ->
     Forall (fun a => img_arg_image a <> None) l -> (1 <= length l <= 4)%nat ->
     prompt = None ->
     create image images image_list prompt = inr (ValidationError "prompt")).
Proof.
  split; [|split].
  - intros l Hl Hwf Hlen. destruct l as [|a l]; [simpl in Hlen; lia|].
    rewrite (create_multi_route image images image_list prompt a l Hl).
    destruct (normalize_images_ok (a :: l) Hwf) as [imgs [E Himgs]].
    unfold create_multi_image. rewrite E. unfold multi_image_to_video_request.
    replace ((1 <=? length imgs)%nat && (length imgs <=? 4)%nat) with false
      by (symmetry; apply andb_false_iff; right; apply Nat.leb_gt; lia).
    reflexivity.
  - intros pre kvs post Hl Hbad.
    pose proof (normalize_images_bad_dict pre post kvs Hbad) as E.
    destruct ((pre ++ ImgDict kvs :: post)%list) as [|a l] eqn:El;
      [destruct pre; discriminate|].
    rewrite (create_multi_route image images image_list prompt a l Hl).
    unfold create_multi_image. rewrite E. reflexivity.
  - intros l Hl Hwf Hlen ->. destruct l as [|a l]; [simpl in Hlen; lia|].
    rewrite (create_multi_route image images image_list None a l Hl).
    destruct (normalize_images_ok (a :: l) Hwf) as [imgs [E Himgs]].
    unfold create_multi_image. rewrite E. unfold multi_image_to_video_request.
    replace ((1 <=? length imgs)%nat && (length imgs <=? 4)%nat) with true
      by (symmetry; apply andb_true_iff; split; apply Nat.leb_le; lia).
    reflexivity.
Qed.

Lemma create_multi_image_errors_witness :
  create None None (Some [ImgStr "a.jpg"; ImgDict [("url", JStr "b.jpg")]]) (Some "p")
  = inr (ValidationError "image").
Proof.
  destruct (create_multi_image_errors None None
              (Some [ImgStr "a.jpg"; ImgDict [("url", JStr "b.jpg")]]) (Some "p"))
    as [_ [H _]].
  apply (H [ImgStr "a.jpg"] [("url", JStr "b.jpg")] []).
  - reflexivity.
  - intros s0. simpl. discriminate.
Defined.

(** An iteration from the state of iteration [j] either stops right after
    fetch [j] or hands the state of iteration [j+1] to the next one. *)
Lemma step_shape (is_sync : bool) (env : Env) (tid : string) (i t : Z) (fuel j : nat) :
  (exists r, poll_loop is_sync env tid i t 0 (S fuel) (state_at env i j)
             = Some (r, after_fetch env i j))
  \/ poll_loop is_sync env tid i t 0 (S fuel) (state_at env i j)
     = poll_loop is_sync env tid i t 0 fuel (state_at env i (S j)).
Proof.
  rewrite poll_loop_S; cbn zeta; simpl fetches; simpl clock; simpl slept.
  destruct (String.eqb _ "succeed"); [left; eexists; reflexivity|].
  destruct (String.eqb _ "failed"); [left; eexists; reflexivity|].
  destruct (t <=? _); [left; eexists; reflexivity|].
  unfold sleep. destruct (is_sync && (i <? 0)); [left; eexists; reflexivity|].
  right. reflexivity.
Qed.

Lemma outcome_after_fetch (is_sync : bool) (env : Env) (tid : string) (i t : Z) :
  forall fuel j r st,
  poll_loop is_sync env tid i t 0 fuel (state_at env i j) = Some (r, st) ->
  exists p, (j <= p)%nat /\ st = after_fetch env i p.
Proof.
  induction fuel as [|fuel IH]; intros j r st H; [discriminate|].
  destruct (step_shape is_sync env tid i t fuel j) as [[r' Hs]|Hs]; rewrite Hs in H.
  - injection H as _ <-. exists j. split; [lia|reflexivity].
  - destruct (IH (S j) r st H) as [p [Hp ->]]. exists p. split; [lia|reflexivity].
Qed.

(** X9: whatever the loop ends with (a task, the task failure, the
    timeout or a sleep error), it ends right after a fetch: at least one
    fetch was made, the clock is the elapsed time the last timeout check
    saw, and exactly one sleep followed every fetch but the last, so the
    loop never sleeps before returning or raising. *)
Theorem outcome_right_after_fetch (is_sync : bool) (env : Env) (tid : string) (i t : Z)
  (fuel : nat) (r : TaskResponse + Exn) (st : PollState)
  (H : poll_loop is_sync env tid i t 0 fuel init_state = Some (r, st)) :
  (1 <= fetches st)%nat
  /\ clock st = elapsed_at env i (fetches st - 1)
  /\ slept st = slept_before env i (fetches st - 1).
Proof.
  rewrite (init_state_at env i) in H.
  destruct (outcome_after_fetch is_sync env tid i t fuel 0 r st H) as [p [_ ->]].
  simpl. replace (p - 0)%nat with p by lia. split; [lia|split; reflexivity].
Qed.

Lemma outcome_right_after_fetch_witness :
  (1 <= fetches (mkPollState 3 10 10))%nat
  /\ clock (mkPollState 3 10 10)
     = elapsed_at (ideal_env (succeed_at 3)) 5 (fetches (mkPollState 3 10 10) - 1)
  /\ slept (mkPollState 3 10 10)
     = slept_before (ideal_env (succeed_at 3)) 5 (fetches (mkPollState 3 10 10) - 1).
Proof.
  apply (outcome_right_after_fetch true (ideal_env (succeed_at 3)) "task-1" 5 600 10
           (inl (mk_task "succeed"))).
  reflexivity.
Defined.


